(** * A shallow embedding of the AR capture page ([App], part_000) and of
    the review page script ([shared/review.js]).

    The browser is modelled at the boundary of the code: every call into a
    platform API (DOM, WebXR, WebGL, Canvas 2D, MediaDevices, localStorage,
    navigation) is an [event] appended to a log, and every callback the code
    hands to the platform is a [callback] value naming the closure and the
    data it captured.  The platform later fires a callback with an [input]
    of the kind that callback receives.  Handlers run in a small
    state / exception / log monad: JavaScript exceptions are [Throw]. *)

From Stdlib Require Import String List ZArith QArith Lia Bool.
Import ListNotations.
Open Scope string_scope.
Open Scope Z_scope.

(** ** Data *)

Record vec3 := mkVec3 { vx : Z; vy : Z; vz : Z }.

(** A THREE.Object3D as far as the code reads it: position and visibility. *)
Record object3d := mkObject3d { position : vec3; visible : bool }.

(** A 2D or WebGL canvas created by the code: its name and its size. *)
Record canvas := mkCanvas { cname : string; cwidth : Z; cheight : Z }.

(** A view of an XR viewer pose, reduced to its viewport. *)
Record view := mkView { vp_width : Z; vp_height : Z }.

(** An XRFrame: the viewer pose in the local reference space (if any) and
    the positions of the hit-test results, in order. *)
Record xrframe := mkFrame { viewer_pose : option view; hit_results : list vec3 }.

(** The loaded glTF: does [scene.children] contain ['Sketchfab_model'],
    how many animations does it carry, and where is its scene root. *)
Record gltf := mkGltf { has_sketchfab_model : bool; n_animations : nat; scene_pos : vec3 }.

(** Closures handed to the platform. *)
Inductive callback :=
| CB_activateXR                                   (* App.activateXR *)
| CB_onSelect                                     (* App.onSelect *)
| CB_onXRFrame                                    (* App.onXRFrame *)
| CB_captureImage                                 (* App.captureImage *)
| CB_capture_frame                                (* the arrow passed to requestAnimationFrame in captureImage *)
| CB_gltf_loaded                                  (* the arrow passed to gltfLoader.load *)
| CB_gum_then (arCanvas cameraCanvas : canvas)    (* .then(stream => ...) in getCamerafeed *)
| CB_gum_catch                                    (* .catch(error => ...) in getCamerafeed *)
| CB_video_loaded (arCanvas cameraCanvas : canvas)(* video.onloadeddata *)
| CB_banner_onload (arCanvas cameraCanvas finalCanvas : canvas) (targetHeight cropMargin : Z)
| CB_banner_onerror
| CB_review_onload (imageData : string)           (* image.onload in review.js *)
| CB_review_toBlob                                (* canvas.toBlob(blob => ...) in review.js *)
| CB_share_onclick.                               (* shareButton.onclick in review.js *)

(** Observable calls into the platform. *)
Inductive event :=
| ev_alert (msg : string)
| ev_console_log (msg : string)
| ev_console_error (msg : string)
| ev_console_warn (msg : string)
| ev_no_xr_device                                 (* onNoXRDevice() *)
| ev_add_listener (target kind : string) (cb : callback)
| ev_request_session (mode : string)
| ev_request_reference_space (kind : string)
| ev_request_hit_test_source
| ev_request_animation_frame (cb : callback)
| ev_body_class_add (cls : string)
| ev_create_element (tag : string)
| ev_get_context (target kind : string)
| ev_update_render_state
| ev_bind_framebuffer
| ev_renderer_set_framebuffer
| ev_renderer_set_size (w h : Z)
| ev_camera_update
| ev_mixer_update
| ev_render
| ev_setup_renderer                               (* new THREE.WebGLRenderer and its settings *)
| ev_scene_add (what : string)
| ev_gltf_load (url : string) (cb : callback)
| ev_action_play
| ev_read_pixels (w h : Z)
| ev_put_image_data (target : string)
| ev_canvas_set_size (target : string) (w h : Z)
| ev_ctx_op (target op : string)                  (* save / restore / translate / scale *)
| ev_draw_image (target source : string) (args : list Q)
| ev_get_user_media
| ev_promise_handlers (on_ok on_err : callback)   (* .then(on_ok).catch(on_err) *)
| ev_set_src_object
| ev_video_play
| ev_set_onload (target : string) (cb : callback)
| ev_set_onerror (target : string) (cb : callback)
| ev_set_image_src (target src : string)
| ev_local_storage_set (key value : string)
| ev_navigate (url : string)
| ev_to_blob (target : string) (cb : callback)
| ev_set_download (href name : string)
| ev_set_onclick (target : string) (cb : callback)
| ev_share.

(** The platform parts whose code is not in this repository: [Reticle.hide]
    (may throw, [None]), the initial [new Reticle()], the PNG encoder behind
    [canvas.toDataURL('image/png')], [URL.createObjectURL], the scene's
    shadow mesh from [DemoUtils.createLitScene()], whether
    [navigator.mediaDevices.getUserMedia] exists, and whether
    [localStorage.setItem(key, value)] stores the entry ([false]: it throws
    a quota error, e.g. for a data URL larger than the storage quota). *)
Record platform := mkPlatform {
  reticle_hide : object3d -> option object3d;
  reticle_new : object3d;
  png_base64 : canvas -> list event -> string;
  object_url : string;
  lit_scene_shadow : option object3d;
  has_media_devices : bool;
  local_storage_accepts : string -> string -> bool
}.

(** The fields of the [App] object the handlers read and write, together
    with the display style of the two DOM elements it drives. *)
Record app := mkApp {
  modelCloned : bool;
  animation : bool;
  stabilized : bool;             (* undefined (falsy) until set *)
  sunflower : option object3d;   (* undefined until the glTF has loaded *)
  reticle : option object3d;     (* undefined until setupThreeJs *)
  shadowMesh : option object3d;  (* scene.children.find(c => c.name === 'shadowMesh') *)
  mixer : bool;                  (* an AnimationMixer exists *)
  captureDisplay : string;       (* captureContainer.style.display *)
  promptDisplay : string         (* #prompt style.display *)
}.

Definition set_modelCloned b s := mkApp b (animation s) (stabilized s) (sunflower s) (reticle s) (shadowMesh s) (mixer s) (captureDisplay s) (promptDisplay s).
Definition set_animation b s := mkApp (modelCloned s) b (stabilized s) (sunflower s) (reticle s) (shadowMesh s) (mixer s) (captureDisplay s) (promptDisplay s).
Definition set_stabilized b s := mkApp (modelCloned s) (animation s) b (sunflower s) (reticle s) (shadowMesh s) (mixer s) (captureDisplay s) (promptDisplay s).
Definition set_sunflower o s := mkApp (modelCloned s) (animation s) (stabilized s) o (reticle s) (shadowMesh s) (mixer s) (captureDisplay s) (promptDisplay s).
Definition set_reticle o s := mkApp (modelCloned s) (animation s) (stabilized s) (sunflower s) o (shadowMesh s) (mixer s) (captureDisplay s) (promptDisplay s).
Definition set_shadowMesh o s := mkApp (modelCloned s) (animation s) (stabilized s) (sunflower s) (reticle s) o (mixer s) (captureDisplay s) (promptDisplay s).
Definition set_mixer b s := mkApp (modelCloned s) (animation s) (stabilized s) (sunflower s) (reticle s) (shadowMesh s) b (captureDisplay s) (promptDisplay s).
Definition set_captureDisplay d s := mkApp (modelCloned s) (animation s) (stabilized s) (sunflower s) (reticle s) (shadowMesh s) (mixer s) d (promptDisplay s).
Definition set_promptDisplay d s := mkApp (modelCloned s) (animation s) (stabilized s) (sunflower s) (reticle s) (shadowMesh s) (mixer s) (captureDisplay s) d.

(** [constructor()]: flags false, capture container hidden by the page. *)
Definition app_init : app :=
  mkApp false false false None None None false "none" "none".

(** ** The handler monad: state, JavaScript exceptions and the event log *)

Inductive outcome (A : Type) := Ok (a : A) | Throw (e : string).
Arguments Ok {A} a.
Arguments Throw {A} e.

Definition M (S A : Type) := S -> outcome A * S * list event.

Definition ret {S A} (a : A) : M S A := fun s => (Ok a, s, []).

Definition bind {S A B} (m : M S A) (f : A -> M S B) : M S B :=
  fun s => match m s with
           | (Ok a, s1, e1) => let '(r, s2, e2) := f a s1 in (r, s2, (e1 ++ e2)%list)
           | (Throw x, s1, e1) => (Throw x, s1, e1)
           end.

Notation "x <- m ;; k" := (bind m (fun x => k)) (at level 61, m at next level, right associativity).
Notation "m ;;; k" := (bind m (fun _ => k)) (at level 61, right associativity).

Definition emit {S} (e : event) : M S unit := fun s => (Ok tt, s, [e]).
Definition get {S} : M S S := fun s => (Ok s, s, []).
Definition modify {S} (f : S -> S) : M S unit := fun s => (Ok tt, f s, []).
Definition throw {S A} (e : string) : M S A := fun s => (Throw e, s, []).

(** [try { m } catch (e) { h(e) }] *)
Definition try_catch {S A} (m : M S A) (h : string -> M S A) : M S A :=
  fun s => match m s with
           | (Throw x, s1, e1) => let '(r, s2, e2) := h x s1 in (r, s2, (e1 ++ e2)%list)
           | r => r
           end.

(** Settlement of a promise the code awaits. *)
Inductive settled := Resolved | Rejected (reason : string).

Definition await_ {S} (p : settled) : M S unit :=
  match p with Resolved => ret tt | Rejected e => throw e end.

Definition run {S A} (m : M S A) (s : S) : outcome A * S * list event := m s.
Definition final {S A} (m : M S A) (s : S) : S := snd (fst (m s)).
Definition events {S A} (m : M S A) (s : S) : list event := snd (m s).

(** ** review.js *)

Module Review.

(** [localStorage] as an association list, first binding wins. *)
Fixpoint getItem (storage : list (string * string)) (key : string) : option string :=
  match storage with
  | [] => None
  | (k, v) :: rest => if String.eqb k key then Some v else getItem rest key
  end.

(** [if (imageData)]: [null] and [''] are falsy. *)
Definition truthy (o : option string) : bool :=
  match o with None => false | Some v => negb (String.eqb v "") end.

(** The top-level script. *)
Definition script (storage : list (string * string)) : M unit unit :=
  match getItem storage "capturedImage" with
  | Some imageData as o =>
      if truthy o then
        emit (ev_set_image_src "captured-image" imageData) ;;;
        emit (ev_get_context "final-canvas" "2d") ;;;
        emit (ev_set_image_src "image" imageData) ;;;
        emit (ev_set_onload "image" (CB_review_onload imageData))
      else emit (ev_alert "No image data available.")
  | None => emit (ev_alert "No image data available.")
  end.

(** [image.onload], the image having size [w] x [h]. *)
Definition image_onload (w h : Z) : M unit unit :=
  emit (ev_canvas_set_size "final-canvas" w h) ;;;
  emit (ev_ctx_op "final-canvas" "save") ;;;
  emit (ev_ctx_op "final-canvas" "translate(0, canvas.height)") ;;;
  emit (ev_ctx_op "final-canvas" "scale(1, -1)") ;;;
  emit (ev_draw_image "final-canvas" "image" (map inject_Z [0; 0; w; h])) ;;;
  emit (ev_ctx_op "final-canvas" "restore") ;;;
  emit (ev_to_blob "final-canvas" CB_review_toBlob).

(** [canvas.toBlob(blob => ...)]. *)
Definition to_blob_cb (url : string) : M unit unit :=
  emit (ev_set_download url "captured_image.png") ;;;
  emit (ev_set_onclick "share-button" CB_share_onclick).

(** [shareButton.onclick]. *)
Definition share_onclick (has_share : bool) : M unit unit :=
  if has_share then emit ev_share
  else emit (ev_alert "Sharing not supported on this device.").

(** Events that render the captured image or set up its buttons. *)
Definition renders (e : event) : bool :=
  match e with
  | ev_set_image_src _ _ | ev_get_context _ _ | ev_set_onload _ _
  | ev_canvas_set_size _ _ _ | ev_ctx_op _ _ | ev_draw_image _ _ _
  | ev_to_blob _ _ | ev_set_download _ _ | ev_set_onclick _ _ => true
  | _ => false
  end.

End Review.

(** ** The AR capture page (part_000) *)

(** Settlement of the promises [activateXR] awaits. *)
Record xr_env := mkXrEnv {
  session_req : settled;    (* navigator.xr.requestSession("immersive-ar", ...) *)
  local_space : settled;    (* requestReferenceSpace('local') *)
  viewer_space : settled;   (* requestReferenceSpace('viewer') *)
  hit_source : settled      (* requestHitTestSource(...) *)
}.

(** The argument a callback is fired with. *)
Inductive input :=
| in_none
| in_xr (env : xr_env)
| in_frame (f : xrframe)
| in_gltf (g : gltf)
| in_stream
| in_error (e : string)
| in_media (w h : Z).   (* a loaded video ([videoWidth], [videoHeight]) or image *)

(** [Math.floor((3 / 4) * h)]; 0.75 and the product are exact doubles for
    canvas heights (below 2^32). *)
Definition target_height (h : Z) : Z := (3 * h) / 4.

(** [Math.floor((h - targetHeight) / 2)]. *)
Definition crop_margin (h targetHeight : Z) : Z := (h - targetHeight) / 2.

(** Truthiness of an object-valued field ([undefined] is falsy). *)
Definition defined {A} (o : option A) : bool :=
  match o with Some _ => true | None => false end.

Definition update_sunflower (f : object3d -> object3d) (s : app) : app :=
  set_sunflower (option_map f (sunflower s)) s.

Section App.

Variable P : platform.

(** The IIFE at the top of the file: [has_xr] is [navigator.xr &&
    navigator.xr.isSessionSupported], [support] the settlement of
    [isSessionSupported("immersive-ar")] and [answer] its value. *)
Definition xr_support_check (has_xr : bool) (support : settled) (answer : bool) : M app unit :=
  if has_xr then
    await_ support ;;;
    (if answer then emit (ev_add_listener "enter-ar" "click" CB_activateXR)
     else emit ev_no_xr_device)
  else emit ev_no_xr_device.

Definition createXRCanvas : M app unit :=
  emit (ev_create_element "canvas") ;;;
  emit (ev_get_context "ar-canvas" "webgl") ;;;
  emit ev_update_render_state.

Definition setupThreeJs : M app unit :=
  emit ev_setup_renderer ;;;
  modify (set_shadowMesh (lit_scene_shadow P)) ;;;
  modify (set_reticle (Some (reticle_new P))) ;;;
  emit (ev_scene_add "reticle") ;;;
  emit (ev_gltf_load "../public/robot/scene.gltf" CB_gltf_loaded).

Definition onSessionStarted (env : xr_env) : M app unit :=
  emit (ev_body_class_add "ar") ;;;
  setupThreeJs ;;;
  emit (ev_request_reference_space "local") ;;;
  await_ (local_space env) ;;;
  emit (ev_request_reference_space "viewer") ;;;
  await_ (viewer_space env) ;;;
  emit ev_request_hit_test_source ;;;
  await_ (hit_source env) ;;;
  emit (ev_request_animation_frame CB_onXRFrame) ;;;
  emit (ev_add_listener "xrSession" "select" CB_onSelect).

Definition activateXR (env : xr_env) : M app unit :=
  try_catch
    (emit (ev_request_session "immersive-ar") ;;;
     await_ (session_req env) ;;;
     createXRCanvas ;;;
     onSessionStarted env)
    (fun e => emit (ev_console_log e) ;;; emit ev_no_xr_device).

(** The [gltfLoader.load] callback.  [model] is [undefined] when the scene
    has no ['Sketchfab_model'] child, and [model.castShadow = true] throws. *)
Definition gltf_loaded (g : gltf) : M app unit :=
  if negb (has_sketchfab_model g) then throw "TypeError"
  else
    modify (set_sunflower (Some (mkObject3d (scene_pos g) true))) ;;;
    modify (set_mixer true) ;;;
    (if Nat.ltb 0 (n_animations g)
     then modify (set_animation true) ;;; emit ev_action_play
     else ret tt) ;;;
    emit (ev_scene_add "sunflower") ;;;
    modify (update_sunflower (fun o => mkObject3d (position o) false)).

Definition onSelect : M app unit :=
  s <- get ;;
  if negb (modelCloned s) && defined (sunflower s) then
    match reticle s with
    | None => throw "TypeError"           (* this.reticle.position *)
    | Some r =>
        modify (update_sunflower (fun o => mkObject3d (position r) (visible o))) ;;;
        modify (update_sunflower (fun o => mkObject3d (position o) true)) ;;;
        modify (set_captureDisplay "flex") ;;;
        s1 <- get ;;
        (match shadowMesh s1 with
         | Some m =>
             let y := match sunflower s1 with Some o => vy (position o) | None => vy (position m) end in
             modify (set_shadowMesh (Some (mkObject3d (mkVec3 (vx (position m)) y (vz (position m))) (visible m))))
         | None => emit (ev_console_warn "Shadow mesh not found.")
         end) ;;;
        modify (set_modelCloned true) ;;;
        s2 <- get ;;
        match reticle s2 with
        | Some r2 =>
            match reticle_hide P r2 with
            | Some r3 => modify (set_reticle (Some r3))
            | None => throw "TypeError"
            end
        | None => emit (ev_console_warn "Reticle is not found.")
        end
    end
  else ret tt.

Definition onXRFrame (f : xrframe) : M app unit :=
  emit (ev_request_animation_frame CB_onXRFrame) ;;;
  emit ev_bind_framebuffer ;;;
  emit ev_renderer_set_framebuffer ;;;
  match viewer_pose f with
  | None => ret tt
  | Some v =>
      emit (ev_renderer_set_size (vp_width v) (vp_height v)) ;;;
      emit ev_camera_update ;;;
      let hitTestResults := hit_results f in
      s <- get ;;
      (if negb (stabilized s) && Nat.ltb 0 (length hitTestResults)
       then modify (set_stabilized true) ;;; emit (ev_body_class_add "stabilized")
       else ret tt) ;;;
      (match hitTestResults with
       | [] => ret tt
       | hitPose :: _ =>
           s1 <- get ;;
           match reticle s1 with
           | Some _ =>
               if negb (modelCloned s1)
               then modify (set_reticle (Some (mkObject3d hitPose true)))
               else emit (ev_console_error "Reticle is not found.")
           | None => emit (ev_console_error "Reticle is not found.")
           end
       end) ;;;
      s2 <- get ;;
      (if mixer s2 && animation s2 then emit ev_mixer_update else ret tt) ;;;
      emit ev_render
  end.

Definition captureImage : M app unit :=
  modify (set_promptDisplay "flex") ;;;
  emit (ev_console_log "Starting capture process") ;;;
  emit (ev_request_animation_frame CB_capture_frame).

Definition getCamerafeed (arCanvas : canvas) (arAspectRatio : Q) : M app unit :=
  if has_media_devices P then
    emit (ev_create_element "canvas") ;;;
    emit (ev_get_context "cameraCanvas" "2d") ;;;
    let h := cheight arCanvas in
    (* cameraCanvas.width = h * (9 / 20), truncated by the canvas *)
    let cameraCanvas := mkCanvas "cameraCanvas" ((9 * h) / 20) h in
    emit (ev_canvas_set_size "cameraCanvas" (cwidth cameraCanvas) h) ;;;
    emit ev_get_user_media ;;;
    emit (ev_promise_handlers (CB_gum_then arCanvas cameraCanvas) CB_gum_catch)
  else ret tt.

Definition capture_frame (f : xrframe) : M app unit :=
  emit (ev_console_log "requestAnimationFrame called") ;;;
  match viewer_pose f with
  | Some v =>
      let w := vp_width v in
      let h := vp_height v in
      emit (ev_console_log "Pose obtained, rendering scene") ;;;
      emit (ev_renderer_set_size w h) ;;;
      emit ev_render ;;;
      emit (ev_console_log "Scene rendered, capturing pixels") ;;;
      emit (ev_read_pixels w h) ;;;
      emit (ev_console_log "Pixels captured, processing image") ;;;
      emit (ev_create_element "canvas") ;;;
      let arCanvas := mkCanvas "arCanvas" w h in
      emit (ev_canvas_set_size "arCanvas" w h) ;;;
      emit (ev_get_context "arCanvas" "2d") ;;;
      emit (ev_ctx_op "arCanvas" "translate(0, arCanvas.height)") ;;;
      emit (ev_ctx_op "arCanvas" "scale(1, -1)") ;;;
      emit (ev_put_image_data "arCanvas") ;;;
      getCamerafeed arCanvas (Qmake w 1 / Qmake h 1)%Q
  | None => emit (ev_console_error "No pose available for capture")
  end.

Definition gum_then (arCanvas cameraCanvas : canvas) : M app unit :=
  emit ev_set_src_object ;;;
  emit ev_video_play ;;;
  emit (ev_set_onload "video" (CB_video_loaded arCanvas cameraCanvas)).

Definition gum_catch (error : string) : M app unit :=
  emit (ev_console_error "Error accessing media devices.") ;;;
  emit (ev_alert "Failed to access the camera. Please check your browser permissions.").

Definition combineCanvases (arCanvas cameraCanvas : canvas) : M app unit :=
  try_catch
    (emit (ev_create_element "canvas") ;;;
     emit (ev_get_context "finalCanvas" "2d") ;;;
     let finalCanvas := mkCanvas "finalCanvas" 300 150 in
     let targetHeight := target_height (cheight arCanvas) in
     let cropMargin := crop_margin (cheight arCanvas) targetHeight in
     emit (ev_create_element "img") ;;;
     emit (ev_set_image_src "bannerImage" "public/banner.jpg") ;;;
     emit (ev_set_onload "bannerImage"
             (CB_banner_onload arCanvas cameraCanvas finalCanvas targetHeight cropMargin)) ;;;
     emit (ev_set_onerror "bannerImage" CB_banner_onerror))
    (fun err => emit (ev_alert err)).

Definition video_loaded (arCanvas cameraCanvas : canvas) (videoWidth videoHeight : Z) : M app unit :=
  let cropWidth := (inject_Z videoHeight * (9 # 20))%Q in
  let cropX := ((inject_Z videoWidth - cropWidth) / inject_Z 2)%Q in
  emit (ev_ctx_op "cameraCanvas" "translate(0, cameraCanvas.height)") ;;;
  emit (ev_ctx_op "cameraCanvas" "scale(1, -1)") ;;;
  emit (ev_draw_image "cameraCanvas" "video"
          [cropX; 0%Q; cropWidth; inject_Z videoHeight; 0%Q; 0%Q;
           inject_Z (cwidth cameraCanvas); inject_Z (cheight cameraCanvas)]) ;;;
  combineCanvases arCanvas cameraCanvas.

(** The draw calls of [bannerImage.onload] on the resized final canvas. *)
Definition banner_draws (arCanvas finalCanvas : canvas) (targetHeight cropMargin bannerHeight : Z) : list event :=
  [ev_draw_image "finalCanvas" "bannerImage"
     (map inject_Z [0; 0; cwidth finalCanvas; bannerHeight]);
   ev_draw_image "finalCanvas" "cameraCanvas"
     (map inject_Z [0; cropMargin; cwidth arCanvas; targetHeight; 0; bannerHeight; cwidth finalCanvas; targetHeight]);
   ev_draw_image "finalCanvas" "arCanvas"
     (map inject_Z [0; cropMargin; cwidth arCanvas; targetHeight; 0; bannerHeight; cwidth finalCanvas; targetHeight])].

Fixpoint emit_all (es : list event) : M app unit :=
  match es with [] => ret tt | e :: rest => emit e ;;; emit_all rest end.

(** [finalCanvas.toDataURL('image/png')]. *)
Definition toDataURL_png (c : canvas) (draws : list event) : string :=
  "data:image/png;base64," ++ png_base64 P c draws.

Definition banner_onload (arCanvas cameraCanvas finalCanvas0 : canvas) (targetHeight cropMargin : Z)
    (bannerWidth bannerHeight : Z) : M app unit :=
  let finalCanvas := mkCanvas (cname finalCanvas0) (cwidth arCanvas) (targetHeight + bannerHeight) in
  let draws := banner_draws arCanvas finalCanvas targetHeight cropMargin bannerHeight in
  emit (ev_canvas_set_size "finalCanvas" (cwidth finalCanvas) (cheight finalCanvas)) ;;;
  emit_all draws ;;;
  let dataURL := toDataURL_png finalCanvas draws in
  (* localStorage.setItem: a quota error is not caught here (the try in
     combineCanvases has returned long before), so the handler stops *)
  (if local_storage_accepts P "capturedImage" dataURL
   then emit (ev_local_storage_set "capturedImage" dataURL)
   else throw "QuotaExceededError") ;;;
  modify (set_promptDisplay "none") ;;;
  emit (ev_console_log "Image processed and stored, redirecting to review page") ;;;
  emit (ev_navigate "review.html").

Definition banner_onerror : M app unit :=
  emit (ev_alert "Failed to load the banner image.").

(** The platform firing a callback of the capture page. *)
Definition fire (cb : callback) (inp : input) : M app unit :=
  match cb, inp with
  | CB_activateXR, in_xr env => activateXR env
  | CB_onSelect, _ => onSelect
  | CB_onXRFrame, in_frame f => onXRFrame f
  | CB_captureImage, _ => captureImage
  | CB_capture_frame, in_frame f => capture_frame f
  | CB_gltf_loaded, in_gltf g => gltf_loaded g
  | CB_gum_then a c, in_stream => gum_then a c
  | CB_gum_catch, in_error e => gum_catch e
  | CB_video_loaded a c, in_media w h => video_loaded a c w h
  | CB_banner_onload a c fc th cm, in_media w h => banner_onload a c fc th cm w h
  | CB_banner_onerror, _ => banner_onerror
  | _, _ => ret tt
  end.

End App.

(** ** Observations on event logs *)

Definition is_raf (e : event) : bool :=
  match e with ev_request_animation_frame _ => true | _ => false end.

Definition is_storage_write (e : event) : bool :=
  match e with ev_local_storage_set _ _ => true | _ => false end.

Definition is_navigate (e : event) : bool :=
  match e with ev_navigate _ => true | _ => false end.

Definition is_alert (e : event) : bool :=
  match e with ev_alert _ => true | _ => false end.

Definition is_console (e : event) : bool :=
  match e with ev_console_log _ | ev_console_error _ | ev_console_warn _ => true | _ => false end.

(** Repeating a handler [n] times, as [n] further events would. *)
Fixpoint repeat_M {S} (n : nat) (m : M S unit) : M S unit :=
  match n with O => ret tt | S k => m ;;; repeat_M k m end.

(** A platform used to run the handlers on concrete inputs. *)
Definition P0 : platform :=
  mkPlatform (fun r => Some (mkObject3d (position r) false))
             (mkObject3d (mkVec3 0 0 0) false)
             (fun _ _ => "iVBORw0KGgo") "blob:review/1" None true (fun _ _ => true).

(** ** Monad laws used by the proofs *)

Lemma run_emit_seq {S A} (e : event) (k : M S A) (s : S) :
  run (emit e ;;; k) s = let '(r, s', es) := run k s in (r, s', e :: es).
Proof. unfold run, bind, emit; simpl. destruct (k s) as [[r s'] es]; reflexivity. Qed.

Lemma run_ret {S A} (a : A) (s : S) : run (ret a) s = (Ok a, s, []).
Proof. reflexivity. Qed.

Lemma prefix_append (a b : string) : String.prefix a (a ++ b) = true.
Proof.
  induction a as [| c a IH]; simpl.
  - destruct b; reflexivity.
  - destruct (Ascii.ascii_dec c c) as [_ | n]; [exact IH | contradiction].
Qed.

(** [m] emits only events satisfying [p], from any state. *)
Definition emits_only {S A} (p : event -> bool) (m : M S A) : Prop :=
  forall s, forallb p (events m s) = true.

Section EmitsOnly.
Context {S : Type} (p : event -> bool).

Lemma emits_only_ret {A} (a : A) : emits_only (S:=S) p (ret a).
Proof. intros s; reflexivity. Qed.

Lemma emits_only_emit (e : event) : p e = true -> emits_only (S:=S) p (emit e).
Proof. intros H s; cbn; rewrite H; reflexivity. Qed.

Lemma emits_only_get : emits_only (S:=S) p get.
Proof. intros s; reflexivity. Qed.

Lemma emits_only_modify (f : S -> S) : emits_only p (modify f).
Proof. intros s; reflexivity. Qed.

Lemma emits_only_throw {A} (e : string) : emits_only (S:=S) (A:=A) p (throw e).
Proof. intros s; reflexivity. Qed.

Lemma emits_only_await (t : settled) : emits_only (S:=S) p (await_ t).
Proof. destruct t; intros s; reflexivity. Qed.

Lemma emits_only_bind {A B} (m : M S A) (f : A -> M S B) :
  emits_only p m -> (forall a, emits_only p (f a)) -> emits_only p (bind m f).
Proof.
  intros Hm Hf s. specialize (Hm s). unfold events, bind in *.
  destruct (m s) as [[[a | x] s1] e1]; simpl in *; [| exact Hm].
  specialize (Hf a s1). unfold events in Hf. destruct (f a s1) as [[r s2] e2]; simpl in *.
  rewrite forallb_app, Hm, Hf; reflexivity.
Qed.

Lemma emits_only_try_catch {A} (m : M S A) (h : string -> M S A) :
  emits_only p m -> (forall e, emits_only p (h e)) -> emits_only p (try_catch m h).
Proof.
  intros Hm Hh s. specialize (Hm s). unfold events, try_catch in *.
  destruct (m s) as [[[a | x] s1] e1]; simpl in *; [exact Hm |].
  specialize (Hh x s1). unfold events in Hh. destruct (h x s1) as [[r s2] e2]; simpl in *.
  rewrite forallb_app, Hm, Hh; reflexivity.
Qed.

End EmitsOnly.

Lemma emits_only_emit_all (p : event -> bool) (es : list event) :
  forallb p es = true -> emits_only p (emit_all es).
Proof.
  induction es as [| e es IH]; simpl; intros H.
  - apply emits_only_ret.
  - apply andb_prop in H as [He Hes].
    apply emits_only_bind; [apply emits_only_emit; exact He | intros _; apply IH; exact Hes].
Qed.

Ltac emits_only_step :=
  match goal with
  | |- emits_only _ (bind _ _) => apply emits_only_bind; [| intro]
  | |- emits_only _ (try_catch _ _) => apply emits_only_try_catch; [| intro]
  | |- emits_only _ (emit _) => apply emits_only_emit; reflexivity
  | |- emits_only _ (emit_all _) => apply emits_only_emit_all; reflexivity
  | |- emits_only _ (ret _) => apply emits_only_ret
  | |- emits_only _ get => apply emits_only_get
  | |- emits_only _ (modify _) => apply emits_only_modify
  | |- emits_only _ (throw _) => apply emits_only_throw
  | |- emits_only _ (await_ _) => apply emits_only_await
  | |- emits_only _ (if ?b then _ else _) => destruct b
  | |- emits_only _ (match ?x with _ => _ end) => destruct x
  | |- emits_only _ (let _ := _ in _) => cbv zeta
  end.

Ltac emits_only_solve :=
  unfold fire, activateXR, createXRCanvas, onSessionStarted, setupThreeJs, gltf_loaded,
    onSelect, onXRFrame, captureImage, capture_frame, getCamerafeed, gum_then, gum_catch,
    video_loaded, combineCanvases, banner_onload, banner_onerror;
  repeat (emits_only_step || cbv zeta).

(** Unfold the monad and the field updates of [app], then reduce. *)
Ltac app_simpl :=
  unfold final, run, events, bind, get, modify, emit, throw, ret, try_catch, await_,
    update_sunflower, set_modelCloned, set_animation, set_stabilized, set_sunflower,
    set_reticle, set_shadowMesh, set_mixer, set_captureDisplay, set_promptDisplay;
  cbn.

Lemma events_emit_seq {S A} (e : event) (k : M S A) (s : S) :
  events (emit e ;;; k) s = e :: events k s.
Proof. unfold events. pose proof (run_emit_seq e k s) as H. unfold run in *. rewrite H.
  destruct (k s) as [[r s'] es]; reflexivity. Qed.

Lemma repeat_M_noop {S} (m : M S unit) (s : S) (n : nat) :
  run m s = (Ok tt, s, []) -> run (repeat_M n m) s = (Ok tt, s, []).
Proof.
  intros Hm. induction n as [| n IH]; [reflexivity |].
  unfold run in *; simpl. unfold bind. rewrite Hm, IH. reflexivity.
Qed.

Definition is_banner_onload (cb : callback) : bool :=
  match cb with CB_banner_onload _ _ _ _ _ => true | _ => false end.

(** ** The select handler *)

Lemma onSelect_after_placement (P : platform) (s : app) :
  modelCloned s = true -> run (onSelect P) s = (Ok tt, s, []).
Proof. intros H. unfold run, onSelect, bind, get. simpl. rewrite H. reflexivity. Qed.

Lemma onSelect_unloaded (P : platform) (s : app) :
  sunflower s = None -> run (onSelect P) s = (Ok tt, s, []).
Proof. intros H. unfold run, onSelect, bind, get. simpl. rewrite H, andb_false_r. reflexivity. Qed.

Lemma onSelect_first (P : platform) (s : app) (m r : object3d)
    (Hfresh : modelCloned s = false) (Hloaded : sunflower s = Some m)
    (Hret : reticle s = Some r) :
  sunflower (final (onSelect P) s) = Some (mkObject3d (position r) true) /\
  modelCloned (final (onSelect P) s) = true /\
  captureDisplay (final (onSelect P) s) = "flex".
Proof.
  unfold onSelect. app_simpl.
  rewrite Hfresh, Hloaded, Hret. cbn.
  destruct (shadowMesh s) as [sm |]; cbn; rewrite ?Hret; cbn;
    destruct (reticle_hide P r) as [r' |]; cbn; rewrite ?Hloaded; cbn; repeat split.
Qed.

Lemma gltf_loaded_state (g : gltf) (s : app) (Hmodel : has_sketchfab_model g = true) :
  sunflower (final (gltf_loaded g) s) = Some (mkObject3d (scene_pos g) false) /\
  modelCloned (final (gltf_loaded g) s) = modelCloned s /\
  reticle (final (gltf_loaded g) s) = reticle s.
Proof.
  unfold gltf_loaded. rewrite Hmodel. app_simpl.
  destruct (n_animations g); cbn; repeat split.
Qed.

(** ** State kept by handlers *)

(** [m] leaves the observation [obs] of the app state as it was. *)
Definition keeps {T A} (obs : app -> T) (m : M app A) : Prop :=
  forall s, obs (final m s) = obs s.

Section Keeps.
Context {T : Type} (obs : app -> T).

Lemma keeps_ret {A} (a : A) : keeps obs (ret a).
Proof. intros s; reflexivity. Qed.

Lemma keeps_emit (e : event) : keeps obs (emit e).
Proof. intros s; reflexivity. Qed.

Lemma keeps_get : keeps obs get.
Proof. intros s; reflexivity. Qed.

Lemma keeps_throw {A} (e : string) : keeps (A:=A) obs (throw e).
Proof. intros s; reflexivity. Qed.

Lemma keeps_await (t : settled) : keeps obs (await_ t).
Proof. destruct t; intros s; reflexivity. Qed.

Lemma keeps_modify (f : app -> app) : (forall s, obs (f s) = obs s) -> keeps obs (modify f).
Proof. intros H s; apply H. Qed.

Lemma keeps_bind {A B} (m : M app A) (f : A -> M app B) :
  keeps obs m -> (forall a, keeps obs (f a)) -> keeps obs (bind m f).
Proof.
  intros Hm Hf s. specialize (Hm s). unfold final, bind in *.
  destruct (m s) as [[[a | x] s1] e1]; simpl in *; [| exact Hm].
  specialize (Hf a s1). unfold final in Hf.
  destruct (f a s1) as [[r s2] e2]; simpl in *. congruence.
Qed.

Lemma keeps_try_catch {A} (m : M app A) (h : string -> M app A) :
  keeps obs m -> (forall e, keeps obs (h e)) -> keeps obs (try_catch m h).
Proof.
  intros Hm Hh s. specialize (Hm s). unfold final, try_catch in *.
  destruct (m s) as [[[a | x] s1] e1]; simpl in *; [exact Hm |].
  specialize (Hh x s1). unfold final in Hh.
  destruct (h x s1) as [[r s2] e2]; simpl in *. congruence.
Qed.

Lemma keeps_emit_all (es : list event) : keeps obs (emit_all es).
Proof.
  induction es as [| e es IH]; simpl; [apply keeps_ret |].
  apply keeps_bind; [apply keeps_emit | intros _; exact IH].
Qed.

End Keeps.

Ltac keeps_step :=
  match goal with
  | |- keeps _ (bind _ _) => apply keeps_bind; [| intro]
  | |- keeps _ (try_catch _ _) => apply keeps_try_catch; [| intro]
  | |- keeps _ (emit _) => apply keeps_emit
  | |- keeps _ (emit_all _) => apply keeps_emit_all
  | |- keeps _ (ret _) => apply keeps_ret
  | |- keeps _ get => apply keeps_get
  | |- keeps _ (modify _) => apply keeps_modify; intro; reflexivity
  | |- keeps _ (throw _) => apply keeps_throw
  | |- keeps _ (await_ _) => apply keeps_await
  | |- keeps _ (if ?b then _ else _) => destruct b
  | |- keeps _ (match ?x with _ => _ end) => destruct x
  | |- keeps _ (let _ := _ in _) => cbv zeta
  end.

Ltac keeps_solve :=
  unfold fire, activateXR, createXRCanvas, onSessionStarted, setupThreeJs, gltf_loaded,
    onSelect, onXRFrame, captureImage, capture_frame, getCamerafeed, gum_then, gum_catch,
    video_loaded, combineCanvases, banner_onload, banner_onerror;
  repeat (keeps_step || cbv zeta).

(** The platform firing a sequence of the capture page's callbacks. *)
Fixpoint fire_all (P : platform) (l : list (callback * input)) : M app unit :=
  match l with
  | [] => ret tt
  | (cb, inp) :: rest => fire P cb inp ;;; fire_all P rest
  end.

Lemma final_bind {A B} (m : M app A) (f : A -> M app B) (s : app) :
  final (bind m f) s =
  match fst (fst (m s)) with
  | Ok a => final (f a) (final m s)
  | Throw _ => final m s
  end.
Proof.
  unfold final, bind. destruct (m s) as [[[a | x] s1] e1]; simpl; [| reflexivity].
  destruct (f a s1) as [[r s2] e2]; reflexivity.
Qed.

(** Under any sequence of callbacks a placed model stays placed and a shown
    capture container stays shown. *)
Lemma fire_all_keeps_placement (P : platform) (l : list (callback * input)) (s : app) :
  modelCloned s = true -> captureDisplay s = "flex" ->
  modelCloned (final (fire_all P l) s) = true /\
  captureDisplay (final (fire_all P l) s) = "flex".
Proof.
  revert s. induction l as [| [cb inp] l IH]; intros s Hplaced Hshown;
    [split; assumption |].
  assert (Hstep : modelCloned (final (fire P cb inp) s) = true /\
                  captureDisplay (final (fire P cb inp) s) = "flex").
  { destruct (Sumbool.sumbool_of_bool (match cb with CB_onSelect => true | _ => false end)) as [Hsel | Hsel].
    - destruct cb; try discriminate. unfold fire.
      pose proof (onSelect_after_placement P s Hplaced) as H.
      unfold final; unfold run in H; rewrite H; split; assumption.
    - assert (K1 : keeps modelCloned (fire P cb inp))
        by (destruct cb; [destruct inp ..]; try discriminate; keeps_solve).
      assert (K2 : keeps captureDisplay (fire P cb inp))
        by (destruct cb; [destruct inp ..]; try discriminate; keeps_solve).
      rewrite K1, K2. split; assumption. }
  simpl fire_all. rewrite final_bind.
  destruct (fst (fst (fire P cb inp s))); [apply IH; apply Hstep | apply Hstep].
Qed.

(** ** Claims *)

(** C1: when localStorage has no ['capturedImage'] entry, review.js only
    shows the alert: it sets no image source, touches no canvas, registers
    no onload callback and configures neither button. *)
Theorem review_missing_image_alerts (storage : list (string * string))
    (Hnone : Review.getItem storage "capturedImage" = None) :
  run (Review.script storage) tt = (Ok tt, tt, [ev_alert "No image data available."]) /\
  forallb (fun e => negb (Review.renders e)) (events (Review.script storage) tt) = true.
Proof. unfold Review.script, events. rewrite Hnone. split; reflexivity. Qed.

Lemma review_missing_image_alerts_witness :
  Review.getItem [("other", "x")] "capturedImage" = None /\
  run (Review.script [("other", "x")]) tt = (Ok tt, tt, [ev_alert "No image data available."]) /\
  forallb (fun e => negb (Review.renders e)) (events (Review.script [("other", "x")]) tt) = true.
Proof. split; [reflexivity | apply review_missing_image_alerts; reflexivity]. Defined.

(** C2: the banner's onload handler tries exactly one localStorage write,
    under ['capturedImage'], of a PNG data URL.  When the write succeeds it
    is the only write and it precedes the navigation to the review page;
    when [setItem] throws (quota) nothing is written and nothing navigates.
    In every case a navigation is preceded by the write, and no other
    callback of the capture page navigates. *)
Theorem combine_writes_then_navigates (P : platform) (arCanvas cameraCanvas finalCanvas0 : canvas)
    (targetHeight cropMargin bannerWidth bannerHeight : Z) (s : app) :
  let finalCanvas := mkCanvas (cname finalCanvas0) (cwidth arCanvas) (targetHeight + bannerHeight) in
  let url := toDataURL_png P finalCanvas
               (banner_draws arCanvas finalCanvas targetHeight cropMargin bannerHeight) in
  let evs := events (banner_onload P arCanvas cameraCanvas finalCanvas0 targetHeight cropMargin
                       bannerWidth bannerHeight) s in
  (forall cb inp, emits_only (fun e => is_banner_onload cb || negb (is_navigate e)) (fire P cb inp)) /\
  filter is_storage_write evs =
    (if local_storage_accepts P "capturedImage" url
     then [ev_local_storage_set "capturedImage" url] else []) /\
  String.prefix "data:image/png;base64," url = true /\
  (In (ev_navigate "review.html") evs <-> local_storage_accepts P "capturedImage" url = true) /\
  (forall pre u post, evs = (pre ++ ev_navigate u :: post)%list ->
     In (ev_local_storage_set "capturedImage" url) pre).
Proof.
  intros finalCanvas url evs.
  split.
  { intros cb inp. destruct cb; [destruct inp .. ]; emits_only_solve. }
  assert (Hpre : String.prefix "data:image/png;base64," url = true) by apply prefix_append.
  destruct (local_storage_accepts P "capturedImage" url) eqn:Hacc.
  - assert (Hevs : evs = ([ev_canvas_set_size "finalCanvas" (cwidth finalCanvas) (cheight finalCanvas)]
                         ++ banner_draws arCanvas finalCanvas targetHeight cropMargin bannerHeight
                         ++ [ev_local_storage_set "capturedImage" url;
                             ev_console_log "Image processed and stored, redirecting to review page";
                             ev_navigate "review.html"])%list).
    { unfold evs, banner_onload. cbv zeta. unfold url, finalCanvas in Hacc.
      unfold toDataURL_png in *. rewrite Hacc. reflexivity. }
    rewrite Hevs. split; [reflexivity |]. split; [exact Hpre |]. split.
    + simpl. tauto.
    + intros pre u post Heq. simpl in Heq.
      repeat (destruct pre as [| e pre]; simpl in Heq;
              [discriminate | injection Heq as Hh Heq; subst e]).
      simpl. tauto.
  - assert (Hevs : evs = ([ev_canvas_set_size "finalCanvas" (cwidth finalCanvas) (cheight finalCanvas)]
                         ++ banner_draws arCanvas finalCanvas targetHeight cropMargin bannerHeight)%list).
    { unfold evs, banner_onload. cbv zeta. unfold url, finalCanvas in Hacc.
      unfold toDataURL_png in *. rewrite Hacc. reflexivity. }
    rewrite Hevs. split; [reflexivity |]. split; [exact Hpre |]. split.
    + simpl. split; [| discriminate]. intros H; repeat (destruct H as [H | H]; [discriminate |]); destruct H.
    + intros pre u post Heq. simpl in Heq.
      repeat (destruct pre as [| e pre]; simpl in Heq;
              [discriminate | injection Heq as Hh Heq; subst e]).
      destruct pre; discriminate.
Qed.


(** C3: the first select with a loaded model copies the reticle position
    into the model, shows it, shows the capture container and sets the
    placed flag; every later select leaves the whole state unchanged and
    emits nothing: in any state with the placed flag set, and so after any
    sequence of callbacks (frames, captures, further selects, failures)
    fired once the model is placed. *)
Theorem onSelect_places_once (P : platform) (s : app) (m r : object3d)
    (Hfresh : modelCloned s = false) (Hloaded : sunflower s = Some m)
    (Hret : reticle s = Some r) :
  let s1 := final (onSelect P) s in
  sunflower s1 = Some (mkObject3d (position r) true) /\
  modelCloned s1 = true /\
  captureDisplay s1 = "flex" /\
  (forall n, run (repeat_M n (onSelect P)) s1 = (Ok tt, s1, [])) /\
  (forall s', modelCloned s' = true -> run (onSelect P) s' = (Ok tt, s', [])) /\
  (forall l n, let s2 := final (fire_all P l) s1 in
     modelCloned s2 = true /\ run (repeat_M n (onSelect P)) s2 = (Ok tt, s2, [])).
Proof.
  intros s1.
  destruct (onSelect_first P s m r Hfresh Hloaded Hret) as (H1 & H2 & H3).
  split; [exact H1 |]. split; [exact H2 |]. split; [exact H3 |].
  split; [intros n; apply repeat_M_noop, onSelect_after_placement, H2 |].
  split; [exact (onSelect_after_placement P) |].
  intros l n s2.
  destruct (fire_all_keeps_placement P l s1 H2 H3) as [K _].
  split; [exact K |]. apply repeat_M_noop, onSelect_after_placement, K.
Qed.

Lemma onSelect_places_once_witness :
  let s := mkApp false false false (Some (mkObject3d (mkVec3 0 0 0) false))
             (Some (mkObject3d (mkVec3 1 2 3) true)) None true "none" "none" in
  let s1 := final (onSelect P0) s in
  sunflower s1 = Some (mkObject3d (mkVec3 1 2 3) true) /\
  modelCloned s1 = true /\ captureDisplay s1 = "flex" /\
  (forall n, run (repeat_M n (onSelect P0)) s1 = (Ok tt, s1, [])) /\
  (forall s', modelCloned s' = true -> run (onSelect P0) s' = (Ok tt, s', [])) /\
  (forall l n, let s2 := final (fire_all P0 l) s1 in
     modelCloned s2 = true /\ run (repeat_M n (onSelect P0)) s2 = (Ok tt, s2, [])).
Proof.
  intros s s1.
  exact (onSelect_places_once P0 s (mkObject3d (mkVec3 0 0 0) false)
           (mkObject3d (mkVec3 1 2 3) true) eq_refl eq_refl eq_refl).
Defined.

(** C8: a select before the glTF has loaded changes nothing and emits
    nothing (placed flag, capture container and reticle untouched); a select
    after the load then places the model. *)
Theorem onSelect_before_load_noop (P : platform) (s : app) (r : object3d) (g : gltf)
    (Hunloaded : sunflower s = None) (Hfresh : modelCloned s = false)
    (Hret : reticle s = Some r) (Hmodel : has_sketchfab_model g = true) :
  run (onSelect P) s = (Ok tt, s, []) /\
  modelCloned (final (onSelect P) s) = false /\
  captureDisplay (final (onSelect P) s) = captureDisplay s /\
  reticle (final (onSelect P) s) = Some r /\
  modelCloned (final (onSelect P) (final (gltf_loaded g) (final (onSelect P) s))) = true.
Proof.
  pose proof (onSelect_unloaded P s Hunloaded) as H0.
  assert (Hf : final (onSelect P) s = s) by (unfold final; unfold run in H0; rewrite H0; reflexivity).
  rewrite Hf. split; [exact H0 |]. split; [exact Hfresh |]. split; [reflexivity |].
  split; [exact Hret |].
  destruct (gltf_loaded_state g s Hmodel) as (H1 & H2 & H3).
  rewrite Hfresh in H2. rewrite Hret in H3.
  apply (onSelect_first P _ _ r H2 H1 H3).
Qed.

(** C10: once the model is placed, a frame leaves the reticle as it was,
    whatever the pose and the hit-test results. *)
Theorem onXRFrame_keeps_reticle_after_placement (f : xrframe) (s : app)
    (Hplaced : modelCloned s = true) :
  reticle (final (onXRFrame f) s) = reticle s.
Proof.
  unfold onXRFrame. app_simpl.
  destruct (viewer_pose f) as [v |]; cbn; [| reflexivity].
  destruct (stabilized s), (hit_results f) as [| h hs]; cbn;
  rewrite ?Hplaced; destruct (reticle s) eqn:Hr; cbn; rewrite ?Hr, ?Hplaced; cbn;
  repeat match goal with |- context [if ?b then _ else _] => destruct b; cbn end;
  congruence.
Qed.

Lemma onXRFrame_keeps_reticle_after_placement_witness :
  let s := mkApp true false true None (Some (mkObject3d (mkVec3 1 2 3) false)) None false "flex" "none" in
  let f := mkFrame (Some (mkView 1080 2400)) [mkVec3 4 5 6] in
  modelCloned s = true /\ reticle (final (onXRFrame f) s) = reticle s.
Proof.
  intros s f. split; [reflexivity |].
  apply (onXRFrame_keeps_reticle_after_placement f s). reflexivity.
Defined.

Lemma onSelect_before_load_noop_witness :
  let r := mkObject3d (mkVec3 1 2 3) true in
  let s := mkApp false false false None (Some r) None false "none" "none" in
  let g := mkGltf true 1 (mkVec3 0 0 0) in
  run (onSelect P0) s = (Ok tt, s, []) /\
  modelCloned (final (onSelect P0) s) = false /\
  captureDisplay (final (onSelect P0) s) = captureDisplay s /\
  reticle (final (onSelect P0) s) = Some r /\
  modelCloned (final (onSelect P0) (final (gltf_loaded g) (final (onSelect P0) s))) = true.
Proof.
  intros r s g. apply (onSelect_before_load_noop P0 s r g); reflexivity.
Defined.

(** C4 (the code contradicts the claim): when [navigator.mediaDevices] is
    missing, [getCamerafeed] does nothing at all, so a capture with a pose
    logs no error and raises no alert.  The permission-denied path, by
    contrast, logs and alerts, and neither path requests the camera again. *)
Theorem getCamerafeed_without_media_devices_silent (P : platform)
    (Hnomedia : has_media_devices P = false) (arCanvas : canvas) (aspect : Q)
    (f : xrframe) (v : view) (Hpose : viewer_pose f = Some v) (s : app) :
  run (getCamerafeed P arCanvas aspect) s = (Ok tt, s, []) /\
  forallb (fun e => negb (is_alert e)) (events (capture_frame P f) s) = true /\
  filter (fun e => match e with ev_console_error _ => true | _ => false end)
    (events (capture_frame P f) s) = [] /\
  (forall error, run (gum_catch error) s =
     (Ok tt, s, [ev_console_error "Error accessing media devices.";
                 ev_alert "Failed to access the camera. Please check your browser permissions."])).
Proof.
  assert (Hg : run (getCamerafeed P arCanvas aspect) s = (Ok tt, s, [])).
  { unfold run, getCamerafeed. rewrite Hnomedia. reflexivity. }
  split; [exact Hg |].
  unfold capture_frame, getCamerafeed. rewrite Hpose, Hnomedia.
  repeat split.
Qed.

Lemma getCamerafeed_without_media_devices_silent_witness :
  let P := mkPlatform (reticle_hide P0) (reticle_new P0) (png_base64 P0) (object_url P0)
             (lit_scene_shadow P0) false (local_storage_accepts P0) in
  let f := mkFrame (Some (mkView 1080 2400)) [] in
  has_media_devices P = false /\
  run (getCamerafeed P (mkCanvas "arCanvas" 1080 2400) (1080 # 2400)) app_init = (Ok tt, app_init, []) /\
  forallb (fun e => negb (is_alert e)) (events (capture_frame P f) app_init) = true /\
  filter (fun e => match e with ev_console_error _ => true | _ => false end)
    (events (capture_frame P f) app_init) = [] /\
  (forall error, run (gum_catch error) app_init =
     (Ok tt, app_init, [ev_console_error "Error accessing media devices.";
                 ev_alert "Failed to access the camera. Please check your browser permissions."])).
Proof.
  intros P f. split; [reflexivity |].
  apply (getCamerafeed_without_media_devices_silent P eq_refl _ _ f (mkView 1080 2400) eq_refl).
Defined.

(** C5: [combineCanvases] itself writes nothing to localStorage and does not
    navigate (both happen only in the banner's onload); when the banner
    fails to load, the onerror handler only alerts. *)
Theorem banner_error_no_handoff (P : platform) (arCanvas cameraCanvas : canvas) :
  emits_only (fun e => negb (is_storage_write e || is_navigate e))
    (combineCanvases arCanvas cameraCanvas) /\
  (forall s, run banner_onerror s = (Ok tt, s, [ev_alert "Failed to load the banner image."])) /\
  (forall inp s, run (fire P CB_banner_onerror inp) s =
                 (Ok tt, s, [ev_alert "Failed to load the banner image."])).
Proof.
  split; [emits_only_solve |].
  split; intros; reflexivity.
Qed.

(** C6: without [navigator.xr], or when [immersive-ar] is reported as
    unsupported, the page shows the no-XR fallback; when the session request
    rejects, [activateXR] logs the reason and shows the fallback, having
    requested the session exactly once. *)
Theorem no_xr_fallback (P : platform) (env : xr_env) (reason : string)
    (Hrej : session_req env = Rejected reason) :
  (forall support answer s,
     run (xr_support_check false support answer) s = (Ok tt, s, [ev_no_xr_device])) /\
  (forall s, run (xr_support_check true Resolved false) s = (Ok tt, s, [ev_no_xr_device])) /\
  (forall s, run (activateXR P env) s =
     (Ok tt, s, [ev_request_session "immersive-ar"; ev_console_log reason; ev_no_xr_device])).
Proof.
  split; [reflexivity |]. split; [reflexivity |].
  intros s. unfold activateXR. app_simpl. rewrite Hrej. reflexivity.
Qed.

Lemma no_xr_fallback_witness :
  let env := mkXrEnv (Rejected "NotSupportedError") Resolved Resolved Resolved in
  session_req env = Rejected "NotSupportedError" /\
  (forall support answer s,
     run (xr_support_check false support answer) s = (Ok tt, s, [ev_no_xr_device])) /\
  (forall s, run (xr_support_check true Resolved false) s = (Ok tt, s, [ev_no_xr_device])) /\
  (forall s, run (activateXR P0 env) s =
     (Ok tt, s, [ev_request_session "immersive-ar"; ev_console_log "NotSupportedError"; ev_no_xr_device])).
Proof. intros env. split; [reflexivity |]. apply (no_xr_fallback P0 env); reflexivity. Defined.

(** C7: every [onXRFrame] call first requests the next frame with itself,
    before looking at the pose; [captureImage] requests exactly one frame,
    for its capture callback, and neither that callback nor anything it
    schedules (camera promise handlers, video and banner callbacks) requests
    another frame. *)
Theorem frame_loop_rearms_capture_one_shot (P : platform) :
  (forall f s, exists rest,
     events (onXRFrame f) s = ev_request_animation_frame CB_onXRFrame :: rest) /\
  (forall s, filter is_raf (events captureImage s) =
             [ev_request_animation_frame CB_capture_frame]) /\
  (forall f, emits_only (fun e => negb (is_raf e)) (capture_frame P f)) /\
  (forall a c, emits_only (fun e => negb (is_raf e)) (gum_then a c)) /\
  (forall err, emits_only (fun e => negb (is_raf e)) (gum_catch err)) /\
  (forall a c w h, emits_only (fun e => negb (is_raf e)) (video_loaded a c w h)) /\
  (forall a c fc th cm w h,
     emits_only (fun e => negb (is_raf e)) (banner_onload P a c fc th cm w h)) /\
  emits_only (fun e => negb (is_raf e)) banner_onerror.
Proof.
  split.
  { intros f s. unfold onXRFrame. rewrite events_emit_seq. eexists; reflexivity. }
  split; [intros s; reflexivity |].
  repeat split; intros; emits_only_solve.
Qed.

(** C9: [combineCanvases] registers the banner's onload with
    [targetHeight = floor(3h/4)] and [cropMargin = floor((h - targetHeight)/2)]
    for the AR canvas height [h]; for [h >= 0] the cropped rows
    [cropMargin .. cropMargin + targetHeight] lie within the canvas, and the
    onload handler sizes the final canvas to [targetHeight] plus the banner
    height. *)
Theorem combine_crop_in_bounds (P : platform) (arCanvas cameraCanvas : canvas) (s : app)
    (Hh : 0 <= cheight arCanvas) :
  let h := cheight arCanvas in
  let targetHeight := target_height h in
  let cropMargin := crop_margin h targetHeight in
  (exists fc, In (ev_set_onload "bannerImage"
                    (CB_banner_onload arCanvas cameraCanvas fc targetHeight cropMargin))
                 (events (combineCanvases arCanvas cameraCanvas) s)) /\
  0 <= cropMargin /\ 0 <= targetHeight /\ cropMargin + targetHeight <= h /\
  (forall fc bannerWidth bannerHeight s',
     hd_error (events (banner_onload P arCanvas cameraCanvas fc targetHeight cropMargin
                         bannerWidth bannerHeight) s') =
     Some (ev_canvas_set_size "finalCanvas" (cwidth arCanvas) (targetHeight + bannerHeight))).
Proof.
  intros h targetHeight cropMargin.
  split.
  { eexists. simpl. tauto. }
  assert (Hb : 0 <= cropMargin /\ 0 <= targetHeight /\ cropMargin + targetHeight <= h).
  { subst cropMargin targetHeight h. unfold crop_margin, target_height.
    Z.div_mod_to_equations. lia. }
  destruct Hb as (H1 & H2 & H3).
  split; [exact H1 |]. split; [exact H2 |]. split; [exact H3 |].
  intros. unfold banner_onload. cbv zeta. rewrite events_emit_seq. reflexivity.
Qed.

Lemma combine_crop_in_bounds_witness :
  let ar := mkCanvas "arCanvas" 1080 2401 in
  let cam := mkCanvas "cameraCanvas" 1080 2401 in
  let h := cheight ar in
  let targetHeight := target_height h in
  let cropMargin := crop_margin h targetHeight in
  0 <= cheight ar /\
  (exists fc, In (ev_set_onload "bannerImage"
                    (CB_banner_onload ar cam fc targetHeight cropMargin))
                 (events (combineCanvases ar cam) app_init)) /\
  0 <= cropMargin /\ 0 <= targetHeight /\ cropMargin + targetHeight <= h /\
  (forall fc bannerWidth bannerHeight s',
     hd_error (events (banner_onload P0 ar cam fc targetHeight cropMargin
                         bannerWidth bannerHeight) s') =
     Some (ev_canvas_set_size "finalCanvas" (cwidth ar) (targetHeight + bannerHeight))).
Proof.
  intros ar cam h targetHeight cropMargin. split; [vm_compute; discriminate |].
  apply (combine_crop_in_bounds P0 ar cam app_init). vm_compute; discriminate.
Defined.

Example target_height_2400 : target_height 2400 = 1800 /\ crop_margin 2400 1800 = 300.
Proof. split; reflexivity. Qed.

(** ** Further properties of the capture and review pages *)

(** An empty [capturedImage] entry is falsy too: the review page alerts and
    renders nothing, as when the entry is missing. *)
Theorem review_empty_entry_alerts (storage : list (string * string))
    (Hempty : Review.getItem storage "capturedImage" = Some "") :
  run (Review.script storage) tt = (Ok tt, tt, [ev_alert "No image data available."]).
Proof. unfold run, Review.script. rewrite Hempty. reflexivity. Qed.

Lemma review_empty_entry_alerts_witness :
  Review.getItem [("capturedImage", "")] "capturedImage" = Some "" /\
  run (Review.script [("capturedImage", "")]) tt = (Ok tt, tt, [ev_alert "No image data available."]).
Proof. split; [reflexivity | apply review_empty_entry_alerts; reflexivity]. Defined.

(** With a non-empty entry the review page raises no alert, shows the stored
    data URL as is, and loads the same data into an image whose onload sizes
    the canvas to the image and draws it once over the whole canvas, flipped
    inside a save/restore pair, before requesting the blob. *)
Theorem review_renders_stored_image (storage : list (string * string)) (d : string) (w h : Z)
    (Hentry : Review.getItem storage "capturedImage" = Some d) (Hnonempty : d <> "") :
  run (Review.script storage) tt =
    (Ok tt, tt, [ev_set_image_src "captured-image" d; ev_get_context "final-canvas" "2d";
                 ev_set_image_src "image" d; ev_set_onload "image" (CB_review_onload d)]) /\
  events (Review.image_onload w h) tt =
    [ev_canvas_set_size "final-canvas" w h;
     ev_ctx_op "final-canvas" "save";
     ev_ctx_op "final-canvas" "translate(0, canvas.height)";
     ev_ctx_op "final-canvas" "scale(1, -1)";
     ev_draw_image "final-canvas" "image" (map inject_Z [0; 0; w; h]);
     ev_ctx_op "final-canvas" "restore";
     ev_to_blob "final-canvas" CB_review_toBlob].
Proof.
  split; [| reflexivity].
  unfold run, Review.script. rewrite Hentry. unfold Review.truthy.
  apply String.eqb_neq in Hnonempty. rewrite Hnonempty. reflexivity.
Qed.

Lemma review_renders_stored_image_witness :
  let st := [("capturedImage", "data:image/png;base64,iVBORw0KGgo")] in
  let d := "data:image/png;base64,iVBORw0KGgo" in
  Review.getItem st "capturedImage" = Some d /\ d <> "" /\
  run (Review.script st) tt =
    (Ok tt, tt, [ev_set_image_src "captured-image" d; ev_get_context "final-canvas" "2d";
                 ev_set_image_src "image" d; ev_set_onload "image" (CB_review_onload d)]) /\
  events (Review.image_onload 1080 2400) tt =
    [ev_canvas_set_size "final-canvas" 1080 2400;
     ev_ctx_op "final-canvas" "save";
     ev_ctx_op "final-canvas" "translate(0, canvas.height)";
     ev_ctx_op "final-canvas" "scale(1, -1)";
     ev_draw_image "final-canvas" "image" (map inject_Z [0; 0; 1080; 2400]);
     ev_ctx_op "final-canvas" "restore";
     ev_to_blob "final-canvas" CB_review_toBlob].
Proof.
  intros st d. split; [reflexivity |]. split; [discriminate |].
  apply review_renders_stored_image; [reflexivity | discriminate].
Defined.

(** When the session and all three setup requests resolve, [activateXR]
    shows no fallback, starts exactly one frame loop (with [onXRFrame]),
    listens for select, requests the model, and creates the reticle, leaving
    the placed flag as it was. *)
Theorem activateXR_success (P : platform) (s : app) :
  let env := mkXrEnv Resolved Resolved Resolved Resolved in
  let evs := events (activateXR P env) s in
  fst (fst (run (activateXR P env) s)) = Ok tt /\
  filter is_raf evs = [ev_request_animation_frame CB_onXRFrame] /\
  In (ev_add_listener "xrSession" "select" CB_onSelect) evs /\
  In (ev_gltf_load "../public/robot/scene.gltf" CB_gltf_loaded) evs /\
  ~ In ev_no_xr_device evs /\
  reticle (final (activateXR P env) s) = Some (reticle_new P) /\
  modelCloned (final (activateXR P env) s) = modelCloned s.
Proof.
  intros env evs. subst evs env.
  unfold activateXR, createXRCanvas, onSessionStarted, setupThreeJs. app_simpl.
  repeat split; try reflexivity; simpl; try tauto.
  intros H; repeat (destruct H as [H | H]; [discriminate |]); exact H.
Qed.

(** When the session starts but a reference space or the hit-test source is
    rejected, [activateXR] ends by logging the rejection and showing the fallback; the
    frame loop is never started and no select listener is added. *)
Theorem activateXR_setup_rejected (P : platform) (env : xr_env) (s : app) (r : string)
    (Hsession : session_req env = Resolved)
    (Hrej : local_space env = Rejected r \/
            (local_space env = Resolved /\ viewer_space env = Rejected r) \/
            (local_space env = Resolved /\ viewer_space env = Resolved /\ hit_source env = Rejected r)) :
  let evs := events (activateXR P env) s in
  fst (fst (run (activateXR P env) s)) = Ok tt /\
  filter is_raf evs = [] /\
  ~ In (ev_add_listener "xrSession" "select" CB_onSelect) evs /\
  skipn (length evs - 2) evs = [ev_console_log r; ev_no_xr_device].
Proof.
  intros evs. subst evs.
  unfold activateXR, createXRCanvas, onSessionStarted, setupThreeJs. app_simpl.
  rewrite Hsession. cbn.
  destruct Hrej as [H1 | [[H1 H2] | [H1 [H2 H3]]]]; rewrite ?H1; cbn; rewrite ?H2; cbn; rewrite ?H3; cbn;
    (split; [reflexivity |]); (split; [reflexivity |]);
    (split; [intros H; simpl in H; repeat (destruct H as [H | H]; [discriminate |]); exact H |]);
    reflexivity.
Qed.

Lemma activateXR_setup_rejected_witness :
  let env := mkXrEnv Resolved Resolved (Rejected "NotSupportedError") Resolved in
  let evs := events (activateXR P0 env) app_init in
  session_req env = Resolved /\
  fst (fst (run (activateXR P0 env) app_init)) = Ok tt /\
  filter is_raf evs = [] /\
  ~ In (ev_add_listener "xrSession" "select" CB_onSelect) evs /\
  skipn (length evs - 2) evs = [ev_console_log "NotSupportedError"; ev_no_xr_device].
Proof.
  intros env evs. split; [reflexivity |].
  apply (activateXR_setup_rejected P0 env app_init "NotSupportedError"); [reflexivity |].
  right; left; split; reflexivity.
Defined.

(** The support check wires the Enter-AR button only when [navigator.xr]
    exists and [immersive-ar] is supported: then the button is wired and
    nothing else happens; without [navigator.xr], or with the answer false,
    the fallback message is shown instead; when [isSessionSupported] itself
    rejects, the check throws with nothing shown: neither the button nor the
    fallback. *)
Theorem xr_support_check_outcomes (s : app) :
  run (xr_support_check true Resolved true) s =
    (Ok tt, s, [ev_add_listener "enter-ar" "click" CB_activateXR]) /\
  (forall r answer, run (xr_support_check true (Rejected r) answer) s = (Throw r, s, [])) /\
  run (xr_support_check true Resolved false) s = (Ok tt, s, [ev_no_xr_device]) /\
  (forall support answer,
     run (xr_support_check false support answer) s = (Ok tt, s, [ev_no_xr_device])) /\
  (forall has_xr support answer,
     In (ev_add_listener "enter-ar" "click" CB_activateXR)
        (events (xr_support_check has_xr support answer) s) <->
     has_xr = true /\ support = Resolved /\ answer = true).
Proof.
  split; [reflexivity |]. split; [intros; reflexivity |].
  split; [reflexivity |]. split; [intros; reflexivity |].
  intros has_xr support answer.
  destruct has_xr, support, answer; cbn; intuition congruence.
Qed.

(** A glTF without a ['Sketchfab_model'] child makes the load callback throw
    before it stores the model: the state is unchanged, so a later select is
    still a no-op. *)
Theorem gltf_without_model_not_placeable (P : platform) (g : gltf) (s : app)
    (Hnomodel : has_sketchfab_model g = false) (Hunloaded : sunflower s = None) :
  run (gltf_loaded g) s = (Throw "TypeError", s, []) /\
  run (onSelect P) (final (gltf_loaded g) s) = (Ok tt, s, []).
Proof.
  assert (H : run (gltf_loaded g) s = (Throw "TypeError", s, [])).
  { unfold run, gltf_loaded. rewrite Hnomodel. reflexivity. }
  split; [exact H |].
  unfold final; unfold run in H; rewrite H; simpl.
  apply onSelect_unloaded, Hunloaded.
Qed.

Lemma gltf_without_model_not_placeable_witness :
  let g := mkGltf false 1 (mkVec3 0 0 0) in
  has_sketchfab_model g = false /\ sunflower app_init = None /\
  run (gltf_loaded g) app_init = (Throw "TypeError", app_init, []) /\
  run (onSelect P0) (final (gltf_loaded g) app_init) = (Ok tt, app_init, []).
Proof.
  intros g. split; [reflexivity |]. split; [reflexivity |].
  apply gltf_without_model_not_placeable; reflexivity.
Defined.

(** A glTF with its model stores the scene hidden at its own position,
    creates the mixer, and turns the animation flag on (and plays the first
    clip) exactly when the file carries animations. *)
Theorem gltf_loaded_with_model (g : gltf) (s : app)
    (Hmodel : has_sketchfab_model g = true) :
  let s1 := final (gltf_loaded g) s in
  sunflower s1 = Some (mkObject3d (scene_pos g) false) /\
  mixer s1 = true /\
  animation s1 = (animation s || Nat.ltb 0 (n_animations g))%bool /\
  (In ev_action_play (events (gltf_loaded g) s) <-> (0 < n_animations g)%nat) /\
  modelCloned s1 = modelCloned s /\ captureDisplay s1 = captureDisplay s.
Proof.
  intros s1. subst s1. unfold gltf_loaded. rewrite Hmodel. app_simpl.
  destruct (n_animations g) as [| n]; cbn.
  - rewrite orb_false_r. repeat split; try reflexivity.
    + intros [H | []]; discriminate.
    + intros H; inversion H.
  - rewrite orb_true_r. repeat split; try reflexivity.
    + intros _; apply Nat.lt_0_succ.
    + intros _; left; reflexivity.
Qed.

Lemma gltf_loaded_with_model_witness :
  let g := mkGltf true 2 (mkVec3 0 0 0) in
  let s1 := final (gltf_loaded g) app_init in
  has_sketchfab_model g = true /\
  sunflower s1 = Some (mkObject3d (scene_pos g) false) /\
  mixer s1 = true /\
  animation s1 = (animation app_init || Nat.ltb 0 (n_animations g))%bool /\
  (In ev_action_play (events (gltf_loaded g) app_init) <-> (0 < n_animations g)%nat) /\
  modelCloned s1 = modelCloned app_init /\ captureDisplay s1 = captureDisplay app_init.
Proof. intros g s1. split; [reflexivity |]. apply gltf_loaded_with_model. reflexivity. Defined.

(** Once stabilized, a frame never adds the ['stabilized'] body class again
    and the flag stays set. *)
Theorem onXRFrame_stabilized_once (f : xrframe) (s : app)
    (Hstab : stabilized s = true) :
  stabilized (final (onXRFrame f) s) = true /\
  ~ In (ev_body_class_add "stabilized") (events (onXRFrame f) s).
Proof.
  unfold onXRFrame. app_simpl.
  destruct (viewer_pose f) as [v |]; cbn.
  - rewrite Hstab. cbn.
    destruct (hit_results f) as [| h hs]; cbn;
      [| destruct (reticle s); cbn; [destruct (modelCloned s) |]; cbn];
      destruct (mixer s), (animation s); cbn;
      (split; [assumption | intros H; repeat (destruct H as [H | H]; [discriminate |]); exact H]).
  - split; [assumption | intros H; repeat (destruct H as [H | H]; [discriminate |]); exact H].
Qed.

Lemma onXRFrame_stabilized_once_witness :
  let s := mkApp false false true None (Some (mkObject3d (mkVec3 0 0 0) false)) None false "none" "none" in
  let f := mkFrame (Some (mkView 1080 2400)) [mkVec3 1 0 2] in
  stabilized s = true /\
  stabilized (final (onXRFrame f) s) = true /\
  ~ In (ev_body_class_add "stabilized") (events (onXRFrame f) s).
Proof. intros s f. split; [reflexivity |]. apply onXRFrame_stabilized_once. reflexivity. Defined.

(** Before placement, a frame with a pose and a hit shows the reticle at the
    first hit's position and marks the session stabilized, rendering the
    scene. *)
Theorem onXRFrame_tracks_first_hit (f : xrframe) (s : app) (v : view) (r : object3d)
    (hit : vec3) (hits : list vec3)
    (Hfresh : modelCloned s = false) (Hret : reticle s = Some r)
    (Hpose : viewer_pose f = Some v) (Hhits : hit_results f = hit :: hits) :
  reticle (final (onXRFrame f) s) = Some (mkObject3d hit true) /\
  stabilized (final (onXRFrame f) s) = true /\
  In ev_render (events (onXRFrame f) s).
Proof.
  unfold onXRFrame. app_simpl. rewrite Hpose, Hhits. cbn.
  destruct (stabilized s) eqn:Hst; cbn; rewrite Hret, Hfresh; cbn;
    destruct (mixer s), (animation s); cbn; repeat split; simpl; tauto.
Qed.

Lemma onXRFrame_tracks_first_hit_witness :
  let r := mkObject3d (mkVec3 0 0 0) false in
  let s := mkApp false false false None (Some r) None false "none" "none" in
  let f := mkFrame (Some (mkView 1080 2400)) [mkVec3 1 0 2; mkVec3 5 5 5] in
  modelCloned s = false /\ reticle s = Some r /\
  reticle (final (onXRFrame f) s) = Some (mkObject3d (mkVec3 1 0 2) true) /\
  stabilized (final (onXRFrame f) s) = true /\
  In ev_render (events (onXRFrame f) s).
Proof.
  intros r s f. split; [reflexivity |]. split; [reflexivity |].
  apply (onXRFrame_tracks_first_hit f s (mkView 1080 2400) r (mkVec3 1 0 2) [mkVec3 5 5 5]);
    reflexivity.
Defined.

(** A frame without a viewer pose only re-arms the loop and binds the
    framebuffer: it renders nothing and leaves the state unchanged. *)
Theorem onXRFrame_without_pose (f : xrframe) (s : app)
    (Hnopose : viewer_pose f = None) :
  run (onXRFrame f) s =
    (Ok tt, s, [ev_request_animation_frame CB_onXRFrame; ev_bind_framebuffer;
                ev_renderer_set_framebuffer]).
Proof. unfold onXRFrame. app_simpl. rewrite Hnopose. reflexivity. Qed.

Lemma onXRFrame_without_pose_witness :
  let f := mkFrame None [mkVec3 1 0 2] in
  viewer_pose f = None /\
  run (onXRFrame f) app_init =
    (Ok tt, app_init, [ev_request_animation_frame CB_onXRFrame; ev_bind_framebuffer;
                       ev_renderer_set_framebuffer]).
Proof. intros f. split; [reflexivity | apply onXRFrame_without_pose; reflexivity]. Defined.

(** A capture frame without a viewer pose logs an error and stops: the camera
    is not requested, and the prompt shown by [captureImage] stays shown. *)
Theorem capture_frame_without_pose (P : platform) (f : xrframe) (s : app)
    (Hnopose : viewer_pose f = None) :
  run (capture_frame P f) s =
    (Ok tt, s, [ev_console_log "requestAnimationFrame called";
                ev_console_error "No pose available for capture"]).
Proof. unfold capture_frame. app_simpl. rewrite Hnopose. reflexivity. Qed.

Lemma capture_frame_without_pose_witness :
  let f := mkFrame None [] in
  viewer_pose f = None /\
  run (capture_frame P0 f) app_init =
    (Ok tt, app_init, [ev_console_log "requestAnimationFrame called";
                       ev_console_error "No pose available for capture"]).
Proof. intros f. split; [reflexivity | apply capture_frame_without_pose; reflexivity]. Defined.

Definition is_get_user_media (e : event) : bool :=
  match e with ev_get_user_media => true | _ => false end.

(** A capture frame with a pose reads the viewport into an AR canvas of the
    viewport's size and requests the camera exactly once, for a camera canvas
    as tall as the AR canvas and [floor(9h/20)] wide, the widest integer width
    not exceeding the 9:20 ratio; the app state is untouched. *)
Theorem capture_frame_requests_camera (P : platform) (f : xrframe) (s : app) (v : view)
    (Hmedia : has_media_devices P = true) (Hpose : viewer_pose f = Some v)
    (Hh : 0 <= vp_height v) :
  let h := vp_height v in
  let camW := (9 * h) / 20 in
  let evs := events (capture_frame P f) s in
  final (capture_frame P f) s = s /\
  filter is_get_user_media evs = [ev_get_user_media] /\
  In (ev_promise_handlers
        (CB_gum_then (mkCanvas "arCanvas" (vp_width v) h) (mkCanvas "cameraCanvas" camW h))
        CB_gum_catch) evs /\
  20 * camW <= 9 * h < 20 * (camW + 1).
Proof.
  intros h camW evs.
  assert (Harith : 20 * camW <= 9 * h < 20 * (camW + 1))
    by (subst camW h; Z.div_mod_to_equations; lia).
  subst evs. unfold capture_frame, getCamerafeed. app_simpl. rewrite Hpose, Hmedia. cbn.
  split; [reflexivity |]. split; [reflexivity |]. split; [simpl; tauto |].
  exact Harith.
Qed.

Lemma capture_frame_requests_camera_witness :
  let v := mkView 1080 2400 in
  let f := mkFrame (Some v) [] in
  let evs := events (capture_frame P0 f) app_init in
  has_media_devices P0 = true /\ viewer_pose f = Some v /\ 0 <= vp_height v /\
  final (capture_frame P0 f) app_init = app_init /\
  filter is_get_user_media evs = [ev_get_user_media] /\
  In (ev_promise_handlers
        (CB_gum_then (mkCanvas "arCanvas" 1080 2400) (mkCanvas "cameraCanvas" ((9 * 2400) / 20) 2400))
        CB_gum_catch) evs /\
  20 * ((9 * 2400) / 20) <= 9 * 2400 < 20 * ((9 * 2400) / 20 + 1).
Proof.
  intros v f evs. split; [reflexivity |]. split; [reflexivity |]. split; [vm_compute; discriminate |].
  apply (capture_frame_requests_camera P0 f app_init v); [reflexivity | reflexivity | vm_compute; discriminate].
Defined.

(** The camera frame is cropped to a 9:20 window centred horizontally in the
    video ([2 * cropX + cropWidth = videoWidth]), spanning the full video
    height, drawn over the whole camera canvas; then the canvases are
    combined, which registers the banner's handlers. *)
Theorem video_loaded_centred_crop (arCanvas cameraCanvas : canvas) (vw vh : Z) (s : app) :
  exists cropX cropWidth,
    In (ev_draw_image "cameraCanvas" "video"
          [cropX; 0%Q; cropWidth; inject_Z vh; 0%Q; 0%Q;
           inject_Z (cwidth cameraCanvas); inject_Z (cheight cameraCanvas)])
       (events (video_loaded arCanvas cameraCanvas vw vh) s) /\
    (cropWidth == inject_Z vh * (9 # 20))%Q /\
    (2 * cropX + cropWidth == inject_Z vw)%Q /\
    In (ev_set_onerror "bannerImage" CB_banner_onerror)
       (events (video_loaded arCanvas cameraCanvas vw vh) s).
Proof.
  exists ((inject_Z vw - inject_Z vh * (9 # 20)) / inject_Z 2)%Q, (inject_Z vh * (9 # 20))%Q.
  unfold video_loaded. rewrite !events_emit_seq.
  split; [right; right; left; reflexivity |].
  split; [reflexivity |]. split.
  - field.
  - right; right; right. unfold combineCanvases. app_simpl. tauto.
Qed.

Definition is_draw (e : event) : bool :=
  match e with ev_draw_image _ _ _ => true | _ => false end.

(** The banner's onload draws, in order, the banner across the top of the
    final canvas, then the camera feed and the AR layer with one and the
    same source and destination rectangle (so the AR layer lies exactly over
    the feed), placed right below the banner and filling the canvas to its
    bottom edge. When localStorage accepts the data URL the handler ends
    normally and hides the capture prompt, changing nothing else; when
    [setItem] throws a quota error the exception escapes the handler, which
    leaves the state untouched and never navigates. *)
Theorem banner_onload_layout (P : platform) (arCanvas cameraCanvas fc : canvas)
    (targetHeight cropMargin bw bh : Z) (s : app) :
  let m := banner_onload P arCanvas cameraCanvas fc targetHeight cropMargin bw bh in
  let W := cwidth arCanvas in
  let fc' := mkCanvas (cname fc) W (targetHeight + bh) in
  let ok := local_storage_accepts P "capturedImage"
              (toDataURL_png P fc' (banner_draws arCanvas fc' targetHeight cropMargin bh)) in
  exists args,
    filter is_draw (events m s) =
      [ev_draw_image "finalCanvas" "bannerImage" (map inject_Z [0; 0; W; bh]);
       ev_draw_image "finalCanvas" "cameraCanvas" args;
       ev_draw_image "finalCanvas" "arCanvas" args] /\
    skipn 4 args = map inject_Z [0; bh; W; targetHeight] /\
    hd_error (events m s) = Some (ev_canvas_set_size "finalCanvas" W (bh + targetHeight)) /\
    fst (fst (run m s)) = (if ok then Ok tt else Throw "QuotaExceededError") /\
    final m s = (if ok then set_promptDisplay "none" s else s) /\
    (In (ev_navigate "review.html") (events m s) <-> ok = true).
Proof.
  intros m W fc' ok. eexists. subst m W.
  unfold banner_onload. cbv zeta. subst ok fc'.
  destruct (local_storage_accepts P "capturedImage" _) eqn:Hacc; app_simpl.
  - split; [reflexivity |]. split; [reflexivity |]. split.
    + f_equal. f_equal. lia.
    + split; [reflexivity |]. split; [destruct s; reflexivity |].
      split; [intros _; reflexivity | intros _; tauto].
  - split; [reflexivity |]. split; [reflexivity |]. split.
    + f_equal. f_equal. lia.
    + split; [reflexivity |]. split; [reflexivity |].
      split; [| discriminate].
      intros H; repeat (destruct H as [H | H]; [discriminate |]); destruct H.
Qed.

(** If [Reticle.hide] throws at the first select, the placement has already
    happened: the handler ends in the exception, yet the model is shown at
    the reticle, the flag is set and the capture container is shown. *)
Theorem onSelect_hide_throws_after_placing (P : platform) (s : app) (m r : object3d)
    (Hfresh : modelCloned s = false) (Hloaded : sunflower s = Some m)
    (Hret : reticle s = Some r) (Hhide : reticle_hide P r = None) :
  fst (fst (run (onSelect P) s)) = Throw "TypeError" /\
  modelCloned (final (onSelect P) s) = true /\
  sunflower (final (onSelect P) s) = Some (mkObject3d (position r) true) /\
  captureDisplay (final (onSelect P) s) = "flex".
Proof.
  destruct (onSelect_first P s m r Hfresh Hloaded Hret) as (H1 & H2 & H3).
  split; [| tauto].
  unfold onSelect. app_simpl. rewrite Hfresh, Hloaded, Hret. cbn.
  destruct (shadowMesh s); cbn; rewrite ?Hret; cbn; rewrite Hhide; reflexivity.
Qed.

Lemma onSelect_hide_throws_after_placing_witness :
  let P := mkPlatform (fun _ => None) (reticle_new P0) (png_base64 P0) (object_url P0)
             (lit_scene_shadow P0) true (local_storage_accepts P0) in
  let m := mkObject3d (mkVec3 0 0 0) false in
  let r := mkObject3d (mkVec3 1 2 3) true in
  let s := mkApp false false false (Some m) (Some r) None true "none" "none" in
  reticle_hide P r = None /\
  fst (fst (run (onSelect P) s)) = Throw "TypeError" /\
  modelCloned (final (onSelect P) s) = true /\
  sunflower (final (onSelect P) s) = Some (mkObject3d (position r) true) /\
  captureDisplay (final (onSelect P) s) = "flex".
Proof.
  intros P m r s. split; [reflexivity |].
  apply (onSelect_hide_throws_after_placing P s m r); reflexivity.
Defined.

(** At the first select the scene's shadow mesh, if any, is moved to the
    model's height (the reticle's [y]), keeping its [x] and [z]; without one,
    a warning is logged. *)
Theorem onSelect_moves_shadow (P : platform) (s : app) (m r : object3d)
    (Hfresh : modelCloned s = false) (Hloaded : sunflower s = Some m)
    (Hret : reticle s = Some r) :
  match shadowMesh s with
  | Some sm =>
      shadowMesh (final (onSelect P) s) =
        Some (mkObject3d (mkVec3 (vx (position sm)) (vy (position r)) (vz (position sm))) (visible sm))
  | None => In (ev_console_warn "Shadow mesh not found.") (events (onSelect P) s)
  end.
Proof.
  unfold onSelect. app_simpl. rewrite Hfresh, Hloaded, Hret. cbn.
  destruct (shadowMesh s); cbn; rewrite ?Hret; cbn; rewrite ?Hloaded; cbn;
    destruct (reticle_hide P r); cbn; auto.
Qed.

Lemma onSelect_moves_shadow_witness :
  let m := mkObject3d (mkVec3 0 0 0) false in
  let r := mkObject3d (mkVec3 1 2 3) true in
  let sm := mkObject3d (mkVec3 7 8 9) true in
  let s := mkApp false false false (Some m) (Some r) (Some sm) true "none" "none" in
  modelCloned s = false /\
  shadowMesh (final (onSelect P0) s) = Some (mkObject3d (mkVec3 7 2 9) true).
Proof.
  intros m r sm s. split; [reflexivity |].
  exact (onSelect_moves_shadow P0 s m r eq_refl eq_refl eq_refl).
Defined.

(** Whatever callbacks fire afterwards, in whatever order and with whatever
    inputs (exceptions included), a placed model stays placed and the shown
    capture container stays shown. *)
Theorem placement_is_permanent (P : platform) (l : list (callback * input)) (s : app)
    (Hplaced : modelCloned s = true) (Hshown : captureDisplay s = "flex") :
  modelCloned (final (fire_all P l) s) = true /\
  captureDisplay (final (fire_all P l) s) = "flex".
Proof. exact (fire_all_keeps_placement P l s Hplaced Hshown). Qed.

Lemma placement_is_permanent_witness :
  let s := mkApp true false true None None None false "flex" "none" in
  modelCloned s = true /\ captureDisplay s = "flex" /\
  modelCloned (final (fire_all P0 [(CB_onSelect, in_none); (CB_captureImage, in_none)]) s) = true /\
  captureDisplay (final (fire_all P0 [(CB_onSelect, in_none); (CB_captureImage, in_none)]) s) = "flex".
Proof.
  intros s. split; [reflexivity |]. split; [reflexivity |].
  apply placement_is_permanent; reflexivity.
Defined.

(** Only the banner's onload hides the capture prompt: once shown, it stays
    shown under every other callback of the capture page, including every
    failure path (no pose, no camera, camera refused, banner failing). *)
Theorem prompt_hidden_only_by_banner_onload (P : platform) (cb : callback) (inp : input) (s : app)
    (Hnotbanner : is_banner_onload cb = false) (Hshown : promptDisplay s = "flex") :
  promptDisplay (final (fire P cb inp) s) = "flex".
Proof.
  destruct (Sumbool.sumbool_of_bool (match cb with CB_captureImage => true | _ => false end)) as [Hc | Hc].
  - destruct cb; try discriminate. reflexivity.
  - assert (K : keeps promptDisplay (fire P cb inp))
      by (destruct cb; [destruct inp ..]; try discriminate; keeps_solve).
    rewrite K. exact Hshown.
Qed.

Lemma prompt_hidden_only_by_banner_onload_witness :
  let s := set_promptDisplay "flex" app_init in
  is_banner_onload CB_gum_catch = false /\ promptDisplay s = "flex" /\
  promptDisplay (final (fire P0 CB_gum_catch (in_error "NotAllowedError")) s) = "flex".
Proof.
  intros s. split; [reflexivity |]. split; [reflexivity |].
  apply prompt_hidden_only_by_banner_onload; reflexivity.
Defined.
